(** * mijn-focus: the Focus API server (web/focus/focusserver.py)

    A shallow embedding of the request handlers of [FocusServer] and of the
    addressing codec used for the stadspas transaction links, together with
    the properties of the gateway specification that concern them.

    Conventions.
    - A Python [str] is a sequence of Unicode code points ([Py.str]).
    - The handlers run in a small monad [M] that threads the state of the
      injected [focus_connection] object, carries a raised exception, and
      records every call made on the connection and every log record.
    - The exceptions of the model are the instances of Python's [Exception],
      which is what every [except Exception] clause of the file catches. *)

From Stdlib Require Import NArith String Ascii List Lia.
From stdpp Require Import base tactics option list gmap.

Local Open Scope N_scope.
Local Set Warnings "-register-all".

(** ** Python strings *)

Module Py.

Abbreviation char := N (only parsing).
Abbreviation str := (list N) (only parsing).
Abbreviation bytes := (list N) (only parsing).

(** An ASCII literal of the source as a sequence of code points. *)
Definition lit (s : string) : str :=
  map N_of_ascii (list_ascii_of_string s).

(** The double quote, code point 34. *)
Definition dquote : str := [34].

Definition is_ascii (c : char) : bool := c <? 128.

Definition is_ascii_upper (c : char) : bool := (65 <=? c) && (c <=? 90).

(** Lower-casing restricted to the ASCII letters. *)
Definition ascii_lower_char (c : char) : char :=
  if is_ascii_upper c then c + 32 else c.

Definition ascii_lower (s : str) : str := map ascii_lower_char s.

Section Lower.

(** [str.lower()] follows the Unicode character database: outside ASCII
    the lower-case mapping of a code point is a sequence of code points
    that may depend on its context in the string (final sigma).  The
    table is a parameter: [unicode_lower s i c] is the mapping of the
    non-ASCII code point [c] standing at index [i] of [s]. *)
Variable unicode_lower : str -> nat -> char -> str.

Definition lower_char (s : str) (i : nat) (c : char) : str :=
  if is_ascii c then [ascii_lower_char c] else unicode_lower s i c.

Fixpoint lower_from (s : str) (i : nat) (rest : str) : str :=
  match rest with
  | [] => []
  | c :: rest' => lower_char s i c ++ lower_from s (S i) rest'
  end.

(** [s.lower()] *)
Definition lower (s : str) : str := lower_from s 0 s.

(** What the Unicode database guarantees of the mapping of a non-ASCII
    code point: it is never empty, and the only ASCII letters it can
    produce are [i] (from U+0130) and [k] (from U+212A). *)
Definition unicode_lower_sound : Prop :=
  forall s i c, 128 <= c ->
    unicode_lower s i c <> [] /\
    Forall (fun d => 128 <= d \/ d = 105 \/ d = 107) (unicode_lower s i c).

End Lower.

(** The strings made of ASCII code points other than [i] and [k]: no
    non-ASCII code point contributes to them under [lower]. *)
Definition ascii_without_i_k (t : str) : bool :=
  forallb (fun d => (d <? 128) && negb (d =? 105) && negb (d =? 107)) t.

(** A concrete table with the two mappings that reach ASCII, the identity
    elsewhere. *)
Definition sample_unicode_lower (_ : str) (_ : nat) (c : char) : str :=
  if c =? 304 then [105; 775]
  else if c =? 8490 then [107]
  else [c].

End Py.

(** ** Results, exceptions and the handler monad *)

(** An instance of [Exception]: the repr of its class and its [str()]. *)
Record exn := mk_exn { exn_type : Py.str; exn_str : Py.str }.

Inductive outcome (A : Type) : Type :=
| Return (a : A)
| Raise (e : exn).
Arguments Return {A} a.
Arguments Raise {A} e.

(** The value of an expression applied to a result, when there is one. *)
Definition outcome_map {A B} (f : A -> B) (o : outcome A) : outcome B :=
  match o with
  | Return a => Return (f a)
  | Raise e => Raise e
  end.

(** JSON-like values: what the remote operations return and what
    [jsonify] serialises. *)
Inductive json : Type :=
| JNull
| JBool (b : bool)
| JNum (n : Z)
| JStr (s : Py.str)
| JList (l : list json)
| JDict (kv : list (Py.str * json)).

(** The dictionary returned by [focus_connection.document]. *)
Record document_data := mk_document {
  contents : Py.bytes;
  fileName : Py.str;
  mime_type : Py.str
}.

(** What a handler does that is visible outside of it: the calls on the
    connection object, with their arguments, and the log records. *)
Inductive event : Type :=
| CallIsAlive
| CallReset
| CallAanvragen (bsn url_root : Py.str)
| CallJaaropgaven (bsn url_root : Py.str)
| CallUitkeringsspecificaties (bsn url_root : Py.str)
| CallEAanvragenTozo (bsn url_root : Py.str)
| CallDocument (bsn : Py.str) (id : option Py.str) (isBulk isDms : bool)
| LogError (message : Py.str).

Definition is_reset (e : event) : bool :=
  match e with CallReset => true | _ => false end.

(** Number of [reset()] calls in a trace. *)
Definition resets (t : list event) : nat := length (filter is_reset t).

(** The interface of the injected connection over its state [C].  The
    class FocusConnection itself lives in focus/focusconnect.py; only the
    methods the server calls are listed.  Every remote operation may raise
    and may change the state of the connection. *)
Class FocusConnection (C : Type) := {
  conn_is_alive : C -> outcome bool * C;
  (** Modelled from the spec: [reset()] discards the session handle, has no
      return value and never fails. *)
  conn_reset : C -> C;
  conn_aanvragen : Py.str -> Py.str -> C -> outcome json * C;
  conn_jaaropgaven : Py.str -> Py.str -> C -> outcome json * C;
  conn_uitkeringsspecificaties : Py.str -> Py.str -> C -> outcome json * C;
  conn_EAanvragenTozo : Py.str -> Py.str -> C -> outcome json * C;
  conn_document :
    Py.str -> option Py.str -> bool -> bool -> C -> outcome document_data * C
}.

Record run (C A : Type) := mk_run {
  result : outcome A;
  final : C;
  trace : list event
}.
Arguments mk_run {C A} _ _ _.
Arguments result {C A} _.
Arguments final {C A} _.
Arguments trace {C A} _.

Definition M (C A : Type) : Type := C -> run C A.

Definition ret {C A} (a : A) : M C A :=
  fun c => mk_run (Return a) c [].

Definition bind {C A B} (m : M C A) (k : A -> M C B) : M C B :=
  fun c =>
    match m c with
    | mk_run (Return a) c1 t1 =>
        match k a c1 with
        | mk_run o c2 t2 => mk_run o c2 (t1 ++ t2)
        end
    | mk_run (Raise e) c1 t1 => mk_run (Raise e) c1 t1
    end.

(** [try: m  except Exception as error: h error] *)
Definition try_except {C A} (m : M C A) (h : exn -> M C A) : M C A :=
  fun c =>
    match m c with
    | mk_run (Return a) c1 t1 => mk_run (Return a) c1 t1
    | mk_run (Raise e) c1 t1 =>
        match h e c1 with
        | mk_run o c2 t2 => mk_run o c2 (t1 ++ t2)
        end
    end.

(** A call on the connection: one event, the outcome of the call and the
    new state of the connection. *)
Definition call {C A} (ev : event) (f : C -> outcome A * C) : M C A :=
  fun c => let '(o, c') := f c in mk_run o c' [ev].

(** [try: x = m  except Exception as error: return h error] followed by
    the rest [k x] of the function body. *)
Definition try_or_return {C A B}
    (m : M C A) (h : exn -> M C B) (k : A -> M C B) : M C B :=
  fun c =>
    match m c with
    | mk_run o c1 t1 =>
        match match o with Return a => k a c1 | Raise e => h e c1 end with
        | mk_run o2 c2 t2 => mk_run o2 c2 (t1 ++ t2)
        end
    end.

(** A computation that does not touch the connection. *)
Definition pure_outcome {C A} (o : outcome A) : M C A :=
  fun c => mk_run o c [].

Module MNotations.
Notation "'do' x <- m ; k" := (bind m (fun x => k))
  (at level 10, x name, m at level 100, k at level 200,
   format "'[v' 'do'  x  <-  m ; '/' k ']'").
Notation "'run_' m ; k" := (bind m (fun _ => k))
  (at level 10, m at level 100, k at level 200,
   format "'[v' 'run_'  m ; '/' k ']'").
End MNotations.
Import MNotations.

(** ** Requests and responses (the part of Flask the server uses) *)

Module Http.

(** [request]: the query string is a multi-dict, kept in request order. *)
Record request := mk_request {
  req_headers : list (Py.str * Py.str);
  args : list (Py.str * Py.str);
  script_root : Py.str
}.

(** [MultiDict.get(key)]: the first value of [key], if any. *)
Fixpoint multidict_get (key : Py.str) (d : list (Py.str * Py.str))
    : option Py.str :=
  match d with
  | [] => None
  | (k, v) :: d' => if bool_decide (k = key) then Some v
                    else multidict_get key d'
  end.

Inductive body_data : Type :=
| Text (s : Py.str)
| Bytes (b : Py.bytes)
| Json (v : json).

Record Response := mk_response {
  body : body_data;
  status : N;
  headers : gmap (list N) (list N)
}.

Definition content_type_key : Py.str := Py.lit "Content-Type".
Definition content_disposition_key : Py.str := Py.lit "Content-Disposition".

(** [Response(text, content_type=ct, status=st)]; the status defaults
    to 200. *)
Definition Response_text (text ct : Py.str) (st : N) : Response :=
  mk_response (Text text) st {[ content_type_key := ct ]}.

(** [make_response(data)] on bytes: status 200 and Flask's default
    content type. *)
Definition make_response (data : Py.bytes) : Response :=
  mk_response (Bytes data) 200
    {[ content_type_key := Py.lit "text/html; charset=utf-8" ]}.

(** [jsonify(value)] *)
Definition jsonify (v : json) : Response :=
  mk_response (Json v) 200
    {[ content_type_key := Py.lit "application/json" ]}.

(** Werkzeug accepts a header value only if it holds no carriage return
    (13) and no line feed (10). *)
Definition header_value_ok (value : Py.str) : bool :=
  forallb (fun c => negb ((c =? 10) || (c =? 13))) value.

(** The [ValueError] Werkzeug raises on any other header value.  The
    class is the same in every release; the text is the one of the recent
    releases, older ones word it differently. *)
Definition header_value_error : exn :=
  mk_exn (Py.lit "<class 'ValueError'>")
         (Py.lit "Header values must not contain newline characters.").

(** [response.headers[key] = value]: replaces the value of [key], or
    raises when the value holds a newline character. *)
Definition set_header (key value : Py.str) (r : Response)
    : outcome Response :=
  if header_value_ok value
  then Return (mk_response (body r) (status r)
                 (<[ key := value ]> (headers r)))
  else Raise header_value_error.

(** What a view function hands back to Flask: a response object or a
    dictionary, which Flask serialises with status 200. *)
Inductive view_rv : Type :=
| RvResponse (r : Response)
| RvDict (d : json).

Definition rv_status (rv : view_rv) : N :=
  match rv with
  | RvResponse r => status r
  | RvDict _ => 200
  end.

End Http.
Import Http.

(** ** The server: class FocusServer *)

Module FocusServer.

Section Handlers.

Context {C : Type} `{!FocusConnection C}.

(** [focus.saml.get_bsn_from_request]: decodes the BSN from the SAML
    token of the request with the TMA certificate the server was built
    with, or raises.  It never sees the connection. *)
Variable get_bsn_from_request : request -> outcome Py.str.

(** [str.lower] outside ASCII, see [Py.lower]. *)
Variable unicode_lower : Py.str -> nat -> N -> Py.str.

(** [logger.error(message)] *)
Definition logger_error (message : Py.str) : M C unit :=
  fun c => mk_run (Return tt) c [LogError message].

(** The methods of [self._focus_connection]. *)
Definition focus_is_alive : M C bool :=
  call CallIsAlive conn_is_alive.

Definition focus_reset : M C unit :=
  call CallReset (fun c => (Return tt, conn_reset c)).

Definition focus_aanvragen (bsn url_root : Py.str) : M C json :=
  call (CallAanvragen bsn url_root) (conn_aanvragen bsn url_root).

Definition focus_jaaropgaven (bsn url_root : Py.str) : M C json :=
  call (CallJaaropgaven bsn url_root) (conn_jaaropgaven bsn url_root).

Definition focus_uitkeringsspecificaties (bsn url_root : Py.str)
    : M C json :=
  call (CallUitkeringsspecificaties bsn url_root)
       (conn_uitkeringsspecificaties bsn url_root).

Definition focus_EAanvragenTozo (bsn url_root : Py.str) : M C json :=
  call (CallEAanvragenTozo bsn url_root)
       (conn_EAanvragenTozo bsn url_root).

Definition focus_document (bsn : Py.str) (id : option Py.str)
    (isBulk isDms : bool) : M C document_data :=
  call (CallDocument bsn id isBulk isDms)
       (conn_document bsn id isBulk isDms).

(** [FocusServer.is_alive] *)
Definition is_alive : M C bool := focus_is_alive.

(** The response built by [_no_connection_response]. *)
Definition no_connection : Response :=
  Response_text (Py.lit "Focus connectivity failed")
                (Py.lit "text/plain") 500.

(** [FocusServer._no_connection_response] *)
Definition _no_connection_response : M C Response :=
  run_ focus_reset;
  ret no_connection.

(** [FocusServer._parameter_error_response], a static method: the
    message is formatted with [str()]. *)
Definition _parameter_error_response (message : Py.str) : Response :=
  Response_text (Py.lit "Parameter error: " ++ message)
                (Py.lit "text/plain") 422.

(** [FocusServer.health], a static method. *)
Definition health : Response :=
  Response_text (Py.lit "OK") (Py.lit "text/plain") 200.

Definition connectivity_ok : Response :=
  Response_text (Py.lit "Connectivity to Focus OK")
                (Py.lit "text/plain") 200.

(** [FocusServer.status_data]: the [try] block either returns the OK
    response or falls through, also when the probe raises. *)
Definition status_data : M C Response :=
  do early <- try_except
                (do alive <- focus_is_alive;
                 if (alive : bool) then ret (Some connectivity_ok)
                 else ret None)
                (fun _ => ret None);
  match early with
  | Some response => ret response
  | None => _no_connection_response
  end.

(** [FocusServer.aanvragen]: the remote call is not guarded, the
    handler that used to follow it is commented out. *)
Definition aanvragen (request : request) : M C view_rv :=
  try_or_return
    (pure_outcome (get_bsn_from_request request))
    (fun error =>
       ret (RvResponse (_parameter_error_response (exn_str error))))
    (fun bsn =>
       do aanvragen <- focus_aanvragen bsn (script_root request);
       ret (RvResponse (jsonify aanvragen))).

Definition combined_dict (jaaropgaven uitkeringsspec tozo : json)
    : json :=
  JDict [ (Py.lit "status", JStr (Py.lit "OK"));
          (Py.lit "content",
           JDict [ (Py.lit "jaaropgaven", jaaropgaven);
                   (Py.lit "uitkeringsspecificaties", uitkeringsspec);
                   (Py.lit "tozodocumenten", tozo) ]) ].

Definition failed_message (what : string) (error : exn) : Py.str :=
  Py.lit "Failed to retrieve " ++ Py.lit what ++ Py.lit ": "
    ++ exn_type error ++ Py.lit " " ++ exn_str error.

(** [FocusServer.combined] *)
Definition combined (request : request) : M C view_rv :=
  try_or_return
    (pure_outcome (get_bsn_from_request request))
    (fun error =>
       ret (RvResponse (_parameter_error_response (exn_str error))))
    (fun bsn =>
       try_except
         (do jaaropgaven <-
            focus_jaaropgaven bsn (script_root request);
          do uitkeringsspec <-
            focus_uitkeringsspecificaties bsn (script_root request);
          do tozo_documents <-
            focus_EAanvragenTozo bsn (script_root request);
          ret (RvDict
                 (combined_dict jaaropgaven uitkeringsspec
                                tozo_documents)))
         (fun error =>
            run_ logger_error (failed_message "aanvragen" error);
            do response <- _no_connection_response;
            ret (RvResponse response))).

(** [request.args.get(name, "false").lower() == "true"] *)
Definition bool_arg (name : Py.str) (request : request) : bool :=
  bool_decide
    (Py.lower unicode_lower
       (default (Py.lit "false") (multidict_get name (args request)))
     = Py.lit "true").

(** The response crafted from a fetched document; either header
    assignment may raise, and nothing catches it. *)
Definition document_response (document : document_data)
    : outcome Response :=
  let response := make_response (contents document) in
  match set_header content_disposition_key
          (Py.lit "attachment; filename=" ++ Py.dquote
             ++ fileName document ++ Py.dquote)
          response with
  | Return response =>
      set_header content_type_key (mime_type document) response
  | Raise error => Raise error
  end.

(** [FocusServer.document] *)
Definition document (request : request) : M C view_rv :=
  let id := multidict_get (Py.lit "id") (args request) in
  let isBulk := bool_arg (Py.lit "isBulk") request in
  let isDms := bool_arg (Py.lit "isDms") request in
  try_or_return
    (pure_outcome (get_bsn_from_request request))
    (fun error =>
       ret (RvResponse (_parameter_error_response (exn_str error))))
    (fun bsn =>
       try_or_return
         (focus_document bsn id isBulk isDms)
         (fun error =>
            run_ logger_error (failed_message "document" error);
            do response <- _no_connection_response;
            ret (RvResponse response))
         (fun document =>
            pure_outcome
              (outcome_map RvResponse (document_response document)))).

(** The views the application routes to. *)
Inductive view : Type :=
| Health
| StatusData
| Aanvragen
| Combined
| Document.

Definition serve (v : view) (request : request) : M C view_rv :=
  match v with
  | Health => ret (RvResponse health)
  | StatusData => do response <- status_data; ret (RvResponse response)
  | Aanvragen => aanvragen request
  | Combined => combined request
  | Document => document request
  end.

(** The views that need the BSN of the caller. *)
Definition authenticated (v : view) : bool :=
  match v with
  | Aanvragen | Combined | Document => true
  | Health | StatusData => false
  end.

End Handlers.

End FocusServer.

(** ** A scripted connection and SAML decoder, as the tests mock them *)

Module Mock.

(** The session handle is usable or not; resets are counted. *)
Record conn := mk_conn { usable : bool; resets_done : nat }.

Definition fault : exn :=
  mk_exn (Py.lit "<class 'zeep.exceptions.Fault'>")
         (Py.lit "session expired").

Definition remote {A} (a : A) (c : conn) : outcome A * conn :=
  if usable c then (Return a, c) else (Raise fault, c).

Definition pdf : document_data :=
  mk_document [37; 80; 68; 70] (Py.lit "aanvraag.pdf")
              (Py.lit "application/pdf").

#[global] Instance mock_connection : FocusConnection conn := {|
  conn_is_alive c := remote true c;
  conn_reset c := mk_conn true (S (resets_done c));
  conn_aanvragen _ _ c := remote (JList []) c;
  conn_jaaropgaven _ _ c := remote (JList []) c;
  conn_uitkeringsspecificaties _ _ c := remote (JList []) c;
  conn_EAanvragenTozo _ _ c := remote (JList []) c;
  conn_document _ _ _ _ c := remote pdf c
|}.

Definition token_header : Py.str := Py.lit "x-saml-attribute-token1".

Definition missing_token : exn :=
  mk_exn (Py.lit "<class 'focus.saml.SamlVerificationException'>")
         (Py.lit "Missing SAML token").

(** Takes the BSN to be the value of the token header. *)
Definition get_bsn (request : request) : outcome Py.str :=
  match multidict_get token_header (req_headers request) with
  | Some bsn => Return bsn
  | None => Raise missing_token
  end.

Definition bsn : Py.str := Py.lit "123456782".

(** A request with a token and the given query string. *)
Definition signed (query : list (Py.str * Py.str)) : request :=
  mk_request [(token_header, bsn)] query (Py.lit "/api").

(** The same request without the token. *)
Definition unsigned (query : list (Py.str * Py.str)) : request :=
  mk_request [] query (Py.lit "/api").

Definition up : conn := mk_conn true 0.
Definition down : conn := mk_conn false 0.

End Mock.

(** ** A connection that serves one stored document *)

Module Archive.

(** The state is the document the backend holds; every operation
    succeeds. *)
Record conn := mk_conn { stored : document_data }.

#[global] Instance archive_connection : FocusConnection conn := {|
  conn_is_alive c := (Return true, c);
  conn_reset c := c;
  conn_aanvragen _ _ c := (Return (JList []), c);
  conn_jaaropgaven _ _ c := (Return (JList []), c);
  conn_uitkeringsspecificaties _ _ c := (Return (JList []), c);
  conn_EAanvragenTozo _ _ c := (Return (JList []), c);
  conn_document _ _ _ _ c := (Return (stored c), c)
|}.

(** A document whose file name holds a line feed. *)
Definition two_lines : document_data :=
  mk_document [37; 80; 68; 70] (Py.lit "a" ++ [10] ++ Py.lit "b.pdf")
              (Py.lit "application/pdf").

End Archive.

(** ** The addressing codec (focus/crypto.py) *)

Module Codec.

(** Modelled from the spec: the composite resource key, a tuple
    (budget-code, admin-number, pass-number) of strings. *)
Record composite_key := mk_key {
  budget_code : Py.str;
  admin_number : Py.str;
  pas_number : Py.str
}.

(** Modelled from the spec: the outcome of [decode], a composite key or
    the single invalid-token failure. *)
Inductive decoded : Type :=
| Decoded (k : composite_key)
| InvalidTokenError.

Section Codec.

(** Modelled from the spec: the reserved separator that joins the
    fields; the spec does not name it. *)
Variable sep : N.

(** Modelled from the spec: the authenticated symmetric cipher and the
    URL-safe encoding of its output are external; encryption may use a
    nonce, decryption and URL-decoding may fail. *)
Variables key nonce : Type.
Variable cipher_encrypt : key -> nonce -> Py.str -> Py.bytes.
Variable cipher_decrypt : key -> Py.bytes -> option Py.str.
Variable url_encode : Py.bytes -> Py.str.
Variable url_decode : Py.str -> option Py.bytes.

(** Modelled from the spec: no field may contain the separator. *)
Definition field_ok (f : Py.str) : bool :=
  forallb (fun c => negb (c =? sep)) f.

Definition valid (k : composite_key) : bool :=
  field_ok (budget_code k) && field_ok (admin_number k)
    && field_ok (pas_number k).

(** Modelled from the spec: the fields joined with the separator. *)
Fixpoint join (fields : list Py.str) : Py.str :=
  match fields with
  | [] => []
  | [f] => f
  | f :: fs => f ++ sep :: join fs
  end.

(** Modelled from the spec: the plaintext split on the separator; a
    string with n separators has n + 1 fields, empty ones included. *)
Fixpoint split (s : Py.str) : list Py.str :=
  match s with
  | [] => [[]]
  | c :: s' =>
      if c =? sep then [] :: split s'
      else match split s' with
           | [] => [[c]]
           | f :: fs => (c :: f) :: fs
           end
  end.

(** Modelled from the spec: [encode] joins the fields, encrypts the
    plaintext and encodes the ciphertext in a URL-safe alphabet. *)
Definition encode (k : composite_key) (K : key) (n : nonce) : Py.str :=
  url_encode
    (cipher_encrypt K n
       (join [budget_code k; admin_number k; pas_number k])).

(** Modelled from the spec: [decode] reverses the encoding and the
    encryption and splits on the separator; it fails when URL-decoding
    fails, when decryption fails, or when the plaintext does not have
    exactly three fields. *)
Definition decode (token : Py.str) (K : key) : decoded :=
  match url_decode token with
  | None => InvalidTokenError
  | Some ciphertext =>
      match cipher_decrypt K ciphertext with
      | None => InvalidTokenError
      | Some plaintext =>
          match split plaintext with
          | [b; a; p] => Decoded (mk_key b a p)
          | _ => InvalidTokenError
          end
      end
  end.

(** Decryption under the key of the encryption gives the plaintext
    back, and so does URL-decoding. *)
Definition cipher_correct : Prop :=
  forall K n p, cipher_decrypt K (cipher_encrypt K n p) = Some p.

Definition url_correct : Prop :=
  forall b, url_decode (url_encode b) = Some b.

End Codec.

Arguments encode sep {key nonce} _ _ _ _ _.
Arguments decode sep {key} _ _ _ _.
Arguments cipher_correct {key nonce} _ _.

(** A toy instance: the ciphertext is the plaintext behind the key and
    the nonce, the URL encoding is the identity. *)
Definition toy_encrypt (K n : N) (p : Py.str) : Py.bytes := K :: n :: p.

Definition toy_decrypt (K : N) (c : Py.bytes) : option Py.str :=
  match c with
  | k :: _ :: p => if k =? K then Some p else None
  | _ => None
  end.

Definition toy_url_encode (b : Py.bytes) : Py.str := b.
Definition toy_url_decode (t : Py.str) : option Py.bytes := Some t.

(** The key of the transactions test with its admin number left
    empty. *)
Definition test_key : composite_key :=
  mk_key (Py.lit "aaa") [] (Py.lit "6666666666666").

End Codec.

(** ** What a trace shows *)

(** The BSN an event hands to the backend, when it is a remote operation
    on behalf of a citizen. *)
Definition event_bsn (e : event) : option Py.str :=
  match e with
  | CallAanvragen bsn _ | CallJaaropgaven bsn _
  | CallUitkeringsspecificaties bsn _ | CallEAanvragenTozo bsn _
  | CallDocument bsn _ _ _ => Some bsn
  | CallIsAlive | CallReset | LogError _ => None
  end.

(** The [url_root] an event hands to the backend. *)
Definition event_url_root (e : event) : option Py.str :=
  match e with
  | CallAanvragen _ root | CallJaaropgaven _ root
  | CallUitkeringsspecificaties _ root | CallEAanvragenTozo _ root =>
      Some root
  | CallDocument _ _ _ _ | CallIsAlive | CallReset | LogError _ => None
  end.

(** The sixteen spellings of [true]: four letters, each in either case. *)
Definition spells_true (value : Py.str) : bool :=
  match value with
  | [t; r; u; e] =>
      ((t =? 116) || (t =? 84)) && ((r =? 114) || (r =? 82))
      && ((u =? 117) || (u =? 85)) && ((e =? 101) || (e =? 69))
  | _ => false
  end.

(** * Properties *)

Import FocusServer.

(** ** The two responses the failure paths build *)

Lemma no_connection_shape :
  status no_connection = 500
  /\ body no_connection = Text (Py.lit "Focus connectivity failed")
  /\ headers no_connection !! content_type_key = Some (Py.lit "text/plain").
Proof. repeat split; apply lookup_singleton_eq. Qed.

Lemma parameter_error_shape (message : Py.str) :
  status (_parameter_error_response message) = 422
  /\ body (_parameter_error_response message)
     = Text (Py.lit "Parameter error: " ++ message)
  /\ headers (_parameter_error_response message) !! content_type_key
     = Some (Py.lit "text/plain").
Proof. repeat split; apply lookup_singleton_eq. Qed.

(** Unfolds the monad so that a handler run becomes a case analysis on the
    outcomes of the calls it makes. *)
Ltac unfold_run :=
  unfold serve, status_data, aanvragen, combined, document,
    _no_connection_response, focus_is_alive, focus_reset, focus_aanvragen,
    focus_jaaropgaven, focus_uitkeringsspecificaties, focus_EAanvragenTozo,
    focus_document, logger_error, try_or_return, try_except, bind, call,
    pure_outcome, ret in *;
  cbn [result final trace] in *.

(** Splits on the outcome of the next connection call in the goal. *)
Ltac next_call :=
  match goal with
  | |- context [conn_is_alive ?c] =>
      destruct (conn_is_alive c) as [[[|]|?] ?] eqn:?
  | |- context [conn_document ?b ?i ?k ?d ?c] =>
      destruct (conn_document b i k d c) as [[?|?] ?] eqn:?
  | |- context [conn_aanvragen ?b ?u ?c] =>
      destruct (conn_aanvragen b u c) as [[?|?] ?] eqn:?
  | |- context [conn_jaaropgaven ?b ?u ?c] =>
      destruct (conn_jaaropgaven b u c) as [[?|?] ?] eqn:?
  | |- context [conn_uitkeringsspecificaties ?b ?u ?c] =>
      destruct (conn_uitkeringsspecificaties b u c) as [[?|?] ?] eqn:?
  | |- context [conn_EAanvragenTozo ?b ?u ?c] =>
      destruct (conn_EAanvragenTozo b u c) as [[?|?] ?] eqn:?
  end;
  cbn [result final trace fst snd] in *.

(** ** Lower-casing *)

Section LowerProperties.

Variable unicode_lower : Py.str -> nat -> N -> Py.str.
Hypothesis unicode_lower_ok : Py.unicode_lower_sound unicode_lower.

Lemma ascii_lower_char_is_ascii (c : N) :
  Py.is_ascii (Py.ascii_lower_char c) = Py.is_ascii c.
Proof.
  unfold Py.ascii_lower_char, Py.is_ascii_upper, Py.is_ascii.
  destruct (65 <=? c) eqn:Hlo, (c <=? 90) eqn:Hhi; cbn; trivial.
  apply N.leb_le in Hhi.
  transitivity true; [|symmetry]; apply N.ltb_lt; lia.
Qed.

Lemma ascii_lower_is_ascii (s : Py.str) :
  forallb Py.is_ascii (Py.ascii_lower s) = forallb Py.is_ascii s.
Proof.
  unfold Py.ascii_lower.
  induction s as [|c s IH]; cbn [map forallb]; [reflexivity|].
  now rewrite ascii_lower_char_is_ascii, IH.
Qed.

Lemma ascii_without_i_k_is_ascii (t : Py.str) :
  Py.ascii_without_i_k t = true -> forallb Py.is_ascii t = true.
Proof.
  induction t as [|d t IH]; cbn; [reflexivity|].
  intros H. apply andb_prop in H as [Hd Ht].
  apply andb_prop in Hd as [Hd _]. apply andb_prop in Hd as [Hd _].
  unfold Py.is_ascii. rewrite Hd. cbn. auto.
Qed.

(** On an ASCII string [lower] is the ASCII lower-casing. *)
Lemma lower_from_ascii (s : Py.str) (i : nat) (rest : Py.str) :
  forallb Py.is_ascii rest = true ->
  Py.lower_from unicode_lower s i rest = Py.ascii_lower rest.
Proof.
  unfold Py.ascii_lower.
  revert i. induction rest as [|c rest IH]; intros i H; [reflexivity|].
  cbn [forallb] in H. apply andb_prop in H as [Hc Hrest].
  cbn [Py.lower_from map]. unfold Py.lower_char. rewrite Hc.
  cbn [app]. now rewrite IH.
Qed.

(** A string whose lower-casing has only ASCII code points other than
    [i] and [k] is itself ASCII. *)
Lemma lower_from_ascii_inv (s : Py.str) (i : nat) (rest t : Py.str) :
  Py.lower_from unicode_lower s i rest = t ->
  Py.ascii_without_i_k t = true ->
  forallb Py.is_ascii rest = true.
Proof.
  revert i t. induction rest as [|c rest IH]; intros i t Ht Hplain;
    [reflexivity|].
  cbn in Ht. unfold Py.lower_char in Ht. cbn.
  destruct (Py.is_ascii c) eqn:Hc.
  - cbn in Ht. subst t. cbn in Hplain.
    apply andb_prop in Hplain as [_ Hplain]. cbn. eauto.
  - exfalso. unfold Py.is_ascii in Hc. apply N.ltb_ge in Hc.
    destruct (unicode_lower_ok s i c Hc) as [Hne Hall].
    destruct (unicode_lower s i c) as [|d ds]; [congruence|].
    inversion Hall as [|? ? Hd _]; subst.
    cbn in Hplain. apply andb_prop in Hplain as [Hd' _].
    apply andb_prop in Hd' as [Hd' Hk]. apply andb_prop in Hd' as [Hlt Hi].
    apply N.ltb_lt in Hlt.
    apply negb_true_iff, N.eqb_neq in Hi, Hk. lia.
Qed.

Lemma lower_eq_iff (s t : Py.str) :
  Py.ascii_without_i_k t = true ->
  Py.lower unicode_lower s = t <-> Py.ascii_lower s = t.
Proof.
  intros Hplain. unfold Py.lower. split; intros H.
  - rewrite <- H. symmetry. apply lower_from_ascii.
    eapply lower_from_ascii_inv; eauto.
  - rewrite <- H. apply lower_from_ascii.
    rewrite <- ascii_lower_is_ascii, H.
    now apply ascii_without_i_k_is_ascii.
Qed.

End LowerProperties.

Lemma sample_unicode_lower_sound :
  Py.unicode_lower_sound Py.sample_unicode_lower.
Proof.
  intros s i c Hc. unfold Py.sample_unicode_lower.
  destruct (c =? 304); [|destruct (c =? 8490)];
    (split; [discriminate|]); repeat constructor; lia.
Qed.

(** ** The response crafted from a document *)

Lemma disposition_value_ok (name : Py.str) :
  header_value_ok
    (Py.lit "attachment; filename=" ++ Py.dquote ++ name ++ Py.dquote)
  = header_value_ok name.
Proof.
  unfold header_value_ok.
  rewrite !forallb_app.
  change (forallb _ (Py.lit "attachment; filename=")) with true.
  change (forallb _ Py.dquote) with true.
  now rewrite andb_true_r.
Qed.

Lemma document_response_shape (d : document_data) (r : Response) :
  document_response d = Return r ->
  status r = 200
  /\ body r = Bytes (contents d)
  /\ headers r !! content_disposition_key
     = Some (Py.lit "attachment; filename=" ++ Py.dquote
               ++ fileName d ++ Py.dquote)
  /\ headers r !! content_type_key = Some (mime_type d).
Proof.
  unfold document_response, set_header.
  destruct (header_value_ok (_ ++ _)); [|discriminate].
  destruct (header_value_ok (mime_type d)); [|discriminate].
  intros [= <-]. cbn [status body headers].
  split; [reflexivity|]. split; [reflexivity|]. split.
  - rewrite lookup_insert_ne by (vm_compute; discriminate).
    apply lookup_insert_eq.
  - apply lookup_insert_eq.
Qed.

Lemma document_response_returns (d : document_data) :
  header_value_ok (fileName d) = true ->
  header_value_ok (mime_type d) = true ->
  exists r, document_response d = Return r.
Proof.
  intros Hname Hmime. unfold document_response, set_header.
  rewrite disposition_value_ok, Hname, Hmime. eauto.
Qed.

Lemma document_response_raises (d : document_data) (e : exn) :
  document_response d = Raise e <->
  e = header_value_error
  /\ (header_value_ok (fileName d) = false
      \/ header_value_ok (mime_type d) = false).
Proof.
  unfold document_response, set_header.
  rewrite disposition_value_ok.
  destruct (header_value_ok (fileName d)),
           (header_value_ok (mime_type d)); split;
    try (intros [= <-]; auto); try discriminate;
    try (intros [-> _]; reflexivity).
  intros [_ [?|?]]; discriminate.
Qed.

Lemma view_status_of_document (d : document_data) (rv : view_rv) :
  outcome_map RvResponse (document_response d) = Return rv ->
  rv_status rv = 200.
Proof.
  destruct (document_response d) as [r|] eqn:Hr; [|discriminate].
  intros [= <-]. now apply document_response_shape in Hr.
Qed.

Section ServerProperties.

Context {C : Type} `{!FocusConnection C}.
Variable get_bsn_from_request : request -> outcome Py.str.
Variable unicode_lower : Py.str -> nat -> N -> Py.str.

Local Abbreviation serve := (serve get_bsn_from_request unicode_lower).
Local Abbreviation aanvragen := (aanvragen get_bsn_from_request).
Local Abbreviation combined := (combined get_bsn_from_request).
Local Abbreviation document := (document get_bsn_from_request unicode_lower).
Local Abbreviation bool_arg := (bool_arg unicode_lower).

(** C7. The health view answers 200 with the plain-text body OK whatever
    the state of the connection and the request, makes no call on the
    connection, leaves its state as it was, and does not raise. *)
Theorem health_always_ok (request : request) (c : C) :
  serve Health request c = mk_run (Return (RvResponse health)) c []
  /\ status health = 200
  /\ body health = Text (Py.lit "OK")
  /\ headers health !! content_type_key = Some (Py.lit "text/plain").
Proof.
  split; [reflexivity|].
  repeat split; apply lookup_singleton_eq.
Qed.

(** C5. The status view answers the 200 plain-text OK response exactly
    when the probe [is_alive()] returns true, without calling [reset()];
    when the probe returns false or raises it answers the 500 plain-text
    failure response and has called [reset()] exactly once. *)
Theorem status_data_alive_iff (c : C) :
  let probe := conn_is_alive c in
  let r := status_data c in
  exists response,
    result r = Return response
    /\ headers response !! content_type_key = Some (Py.lit "text/plain")
    /\ (status response = 200 <-> probe.1 = Return true)
    /\ match probe.1 with
       | Return true =>
           response = connectivity_ok
           /\ resets (trace r) = 0%nat
           /\ final r = probe.2
       | _ =>
           response = no_connection
           /\ status response = 500
           /\ resets (trace r) = 1%nat
           /\ trace r = [CallIsAlive; CallReset]
           /\ final r = conn_reset probe.2
       end.
Proof.
  intros probe r. subst probe r. unfold_run. next_call.
  - exists connectivity_ok. repeat split; auto using lookup_singleton_eq.
  - exists no_connection.
    repeat split; auto using lookup_singleton_eq; try discriminate.
  - exists no_connection.
    repeat split; auto using lookup_singleton_eq; try discriminate.
Qed.

(** C4. When the BSN cannot be extracted from the request, each of the
    views aanvragen, combined and document answers the 422 plain-text
    response that carries the detail of the failure (so not a 500), makes
    no call on the connection (no BSN is passed on) and leaves it as it
    was. *)
Theorem bsn_failure_gives_422
    (v : view) (request : request) (c : C) (error : exn) :
  authenticated v = true ->
  get_bsn_from_request request = Raise error ->
  exists response,
    serve v request c = mk_run (Return (RvResponse response)) c []
    /\ status response = 422
    /\ status response <> 500
    /\ body response
       = Text (Py.lit "Parameter error: " ++ exn_str error)
    /\ headers response !! content_type_key = Some (Py.lit "text/plain").
Proof.
  intros Hauth Hbsn.
  exists (_parameter_error_response (exn_str error)).
  split.
  - destruct v; try discriminate Hauth; unfold_run; now rewrite Hbsn.
  - repeat split; discriminate.
Qed.

(** The run of a view whose BSN extraction succeeded. *)
Lemma aanvragen_with_bsn (request : request) (bsn : Py.str) (c : C) :
  get_bsn_from_request request = Return bsn ->
  aanvragen request c
  = (do a <- focus_aanvragen bsn (script_root request);
     ret (RvResponse (jsonify a))) c.
Proof.
  intros Hbsn. unfold_run. rewrite Hbsn. cbn [result final trace].
  now destruct (conn_aanvragen _ _ _) as [[?|?] ?].
Qed.

(** The guarded sibling: a fault of the remote document call is logged,
    the connection is reset once and the uniform 500 is returned. *)
Lemma document_fault_is_uniform
    (request : request) (bsn : Py.str) (c c' : C) (error : exn) :
  get_bsn_from_request request = Return bsn ->
  conn_document bsn (multidict_get (Py.lit "id") (args request))
    (bool_arg (Py.lit "isBulk") request)
    (bool_arg (Py.lit "isDms") request) c = (Raise error, c') ->
  document request c
  = mk_run (Return (RvResponse no_connection)) (conn_reset c')
      [CallDocument bsn (multidict_get (Py.lit "id") (args request))
         (bool_arg (Py.lit "isBulk") request)
         (bool_arg (Py.lit "isDms") request);
       LogError (failed_message "document" error);
       CallReset].
Proof.
  intros Hbsn Hdoc. unfold_run. rewrite Hbsn. cbn [result final trace]. now rewrite Hdoc.
Qed.

(** The guarded sibling: with a BSN, combined never raises; it either
    returns its dictionary without a reset, or the uniform 500 after
    exactly one reset. *)
Lemma combined_fault_is_uniform
    (request : request) (bsn : Py.str) (c : C) :
  get_bsn_from_request request = Return bsn ->
  let r := combined request c in
  (exists d, result r = Return (RvDict d) /\ resets (trace r) = 0%nat)
  \/ (result r = Return (RvResponse no_connection)
      /\ resets (trace r) = 1%nat).
Proof.
  intros Hbsn r. subst r. unfold_run. rewrite Hbsn. cbn [result final trace].
  repeat (next_call; try (right; split; reflexivity)).
  left. eexists. split; reflexivity.
Qed.

(** C1, on the code: a fault of the remote call made by the aanvragen
    view is not caught.  The exception leaves the handler, [reset()] is
    not called and no response is built. *)
Theorem aanvragen_fault_propagates
    (request : request) (bsn : Py.str) (c c' : C) (error : exn) :
  get_bsn_from_request request = Return bsn ->
  conn_aanvragen bsn (script_root request) c = (Raise error, c') ->
  aanvragen request c
  = mk_run (Raise error) c' [CallAanvragen bsn (script_root request)]
  /\ resets (trace (aanvragen request c)) = 0%nat.
Proof.
  intros Hbsn Hcall. rewrite (aanvragen_with_bsn _ _ _ Hbsn).
  unfold_run. now rewrite Hcall.
Qed.

(** C9. Whenever a view answers with status 422 it has made no call on
    the connection and the connection is in the state it was in; and
    whenever a view has called [reset()], it did so once and answers
    the response of [_no_connection_response]. *)
Theorem parameter_error_keeps_connection
    (v : view) (request : request) (c : C) :
  let r := serve v request c in
  (forall rv, result r = Return rv -> rv_status rv = 422 ->
     final r = c /\ trace r = [])
  /\ (In CallReset (trace r) ->
      result r = Return (RvResponse no_connection)
      /\ resets (trace r) = 1%nat).
Proof.
  intros r; subst r.
  destruct v; unfold_run;
    try destruct (get_bsn_from_request request) as [bsn|error];
    cbn [result final trace];
    repeat next_call;
    (split;
     [ intros rv Hrv Hst;
       try (apply view_status_of_document in Hrv; congruence);
       inversion Hrv; subst; try discriminate Hst;
       split; reflexivity
     | intros Hin; try (split; reflexivity);
       exfalso; simpl in Hin; intuition discriminate ]).
Qed.

(** C10. A document request without an [id] parameter whose BSN was
    extracted is not answered with 422: the remote document call is made
    with [id] equal to [None].  A 422 of this view therefore comes from a
    failed BSN extraction only. *)
Theorem document_without_id_is_forwarded
    (request : request) (bsn : Py.str) (c : C) :
  multidict_get (Py.lit "id") (args request) = None ->
  get_bsn_from_request request = Return bsn ->
  let r := document request c in
  hd_error (trace r)
  = Some (CallDocument bsn None (bool_arg (Py.lit "isBulk") request)
            (bool_arg (Py.lit "isDms") request))
  /\ (forall rv, result r = Return rv -> rv_status rv <> 422).
Proof.
  intros Hid Hbsn r; subst r. unfold_run.
  rewrite Hbsn, Hid. cbn [result final trace].
  next_call; (split; [reflexivity|]);
    intros rv Hrv;
    try (apply view_status_of_document in Hrv; rewrite Hrv; discriminate);
    inversion Hrv; subst; discriminate.
Qed.

(** C6, as amended. When the BSN is extracted and the remote call returns
    a document whose file name and MIME type hold no carriage return and
    no line feed, the call was made with the [id] of the query string (if
    any) and the two flags, and the response has status 200, the raw
    contents as its body, the header Content-Disposition
    [attachment; filename="<fileName>"] and the declared MIME type as
    Content-Type.  An absent flag counts as false. *)
Theorem document_success_response
    (request : request) (bsn : Py.str) (c c' : C) (doc : document_data) :
  let id := multidict_get (Py.lit "id") (args request) in
  let isBulk := bool_arg (Py.lit "isBulk") request in
  let isDms := bool_arg (Py.lit "isDms") request in
  get_bsn_from_request request = Return bsn ->
  conn_document bsn id isBulk isDms c = (Return doc, c') ->
  header_value_ok (fileName doc) = true ->
  header_value_ok (mime_type doc) = true ->
  exists response,
    document request c
    = mk_run (Return (RvResponse response)) c'
        [CallDocument bsn id isBulk isDms]
    /\ status response = 200
    /\ body response = Bytes (contents doc)
    /\ headers response !! content_disposition_key
       = Some (Py.lit "attachment; filename=" ++ Py.dquote
                 ++ fileName doc ++ Py.dquote)
    /\ headers response !! content_type_key = Some (mime_type doc)
    /\ (multidict_get (Py.lit "isBulk") (args request) = None ->
        isBulk = false)
    /\ (multidict_get (Py.lit "isDms") (args request) = None ->
        isDms = false).
Proof.
  intros id isBulk isDms Hbsn Hdoc Hname Hmime. subst id isBulk isDms.
  destruct (document_response_returns doc Hname Hmime) as [response Hr].
  exists response. split.
  { unfold_run. rewrite Hbsn. cbn [result final trace].
    rewrite Hdoc, Hr. reflexivity. }
  destruct (document_response_shape doc response Hr)
    as (Hst & Hbody & Hdisp & Htype).
  repeat (split; [assumption|]).
  split; intros Habs; unfold FocusServer.bool_arg; now rewrite Habs.
Qed.

(** C8. In the document view each of the flags isBulk and isDms is true
    exactly when its query parameter is present with a value that equals
    [true] after ASCII lower-casing; it is false when the parameter is
    absent or has any other value.  The flags are total functions of the
    request, and they are what the remote call receives. *)
Theorem document_flags_strict (request : request) :
  Py.unicode_lower_sound unicode_lower ->
  let isBulk := bool_arg (Py.lit "isBulk") request in
  let isDms := bool_arg (Py.lit "isDms") request in
  (isBulk = true <->
     exists value, multidict_get (Py.lit "isBulk") (args request)
                   = Some value
                   /\ Py.ascii_lower value = Py.lit "true")
  /\ (isDms = true <->
        exists value, multidict_get (Py.lit "isDms") (args request)
                      = Some value
                      /\ Py.ascii_lower value = Py.lit "true")
  /\ (forall c bsn, get_bsn_from_request request = Return bsn ->
        hd_error (trace (document request c))
        = Some (CallDocument bsn
                  (multidict_get (Py.lit "id") (args request))
                  isBulk isDms)).
Proof.
  intros Hsound isBulk isDms. subst isBulk isDms.
  assert (Hflag : forall name,
    bool_arg name request = true <->
    exists value, multidict_get name (args request) = Some value
                  /\ Py.ascii_lower value = Py.lit "true").
  { intros name. unfold FocusServer.bool_arg.
    rewrite bool_decide_eq_true.
    rewrite (lower_eq_iff _ Hsound) by reflexivity.
    destruct (multidict_get name (args request)) as [value|]; cbn.
    - split; [eauto|]. now intros (? & [= <-] & ?).
    - split; [discriminate|]. now intros (? & ? & _). }
  split; [apply Hflag|]. split; [apply Hflag|].
  intros c bsn Hbsn. unfold_run. rewrite Hbsn. cbn [result final trace].
  now next_call.
Qed.

End ServerProperties.

(** ** The views on the scripted connection *)

Section MockRuns.

Local Abbreviation ul := Py.sample_unicode_lower.
Local Abbreviation q := Py.lit.

Example flag_mixed_case :
  bool_arg ul (q "isBulk") (Mock.signed [(q "isBulk", q "TrUe")]) = true.
Proof. reflexivity. Qed.

Example flag_one_is_false :
  bool_arg ul (q "isBulk") (Mock.signed [(q "isBulk", q "1")]) = false.
Proof. reflexivity. Qed.

Example flag_first_value_wins :
  bool_arg ul (q "isDms")
    (Mock.signed [(q "isDms", q "no"); (q "isDms", q "true")]) = false.
Proof. reflexivity. Qed.

(** U+212A (Kelvin sign) lower-cases to [k], which no flag value needs. *)
Example flag_kelvin :
  Py.lower ul [8490; 84] = q "kt"
  /\ bool_arg ul (q "isBulk") (Mock.signed [(q "isBulk", [8490])]) = false.
Proof. split; reflexivity. Qed.

Example status_up :
  status_data Mock.up
  = mk_run (Return connectivity_ok) Mock.up [CallIsAlive].
Proof. reflexivity. Qed.

Example status_down_then_up :
  let r := status_data Mock.down in
  result r = Return no_connection
  /\ final r = Mock.mk_conn true 1
  /\ result (status_data (final r)) = Return connectivity_ok.
Proof. repeat split. Qed.

Example combined_down :
  result (combined Mock.get_bsn (Mock.signed []) Mock.down)
  = Return (RvResponse no_connection).
Proof. reflexivity. Qed.

Example aanvragen_down :
  result (aanvragen Mock.get_bsn (Mock.signed []) Mock.down)
  = Raise Mock.fault.
Proof. reflexivity. Qed.

End MockRuns.

Lemma bsn_failure_gives_422_witness :
  authenticated Document = true
  /\ Mock.get_bsn (Mock.unsigned []) = Raise Mock.missing_token
  /\ exists response,
       serve Mock.get_bsn Py.sample_unicode_lower Document
         (Mock.unsigned []) Mock.down
       = mk_run (Return (RvResponse response)) Mock.down []
       /\ status response = 422
       /\ status response <> 500
       /\ body response
          = Text (Py.lit "Parameter error: " ++ exn_str Mock.missing_token)
       /\ headers response !! content_type_key = Some (Py.lit "text/plain").
Proof.
  split; [reflexivity|]. split; [reflexivity|].
  apply (bsn_failure_gives_422 Mock.get_bsn Py.sample_unicode_lower
           Document (Mock.unsigned []) Mock.down Mock.missing_token);
    reflexivity.
Defined.

Lemma aanvragen_fault_propagates_witness :
  Mock.get_bsn (Mock.signed []) = Return Mock.bsn
  /\ conn_aanvragen Mock.bsn (script_root (Mock.signed [])) Mock.down
     = (Raise Mock.fault, Mock.down)
  /\ aanvragen Mock.get_bsn (Mock.signed []) Mock.down
     = mk_run (Raise Mock.fault) Mock.down
         [CallAanvragen Mock.bsn (script_root (Mock.signed []))]
  /\ resets (trace (aanvragen Mock.get_bsn (Mock.signed []) Mock.down))
     = 0%nat.
Proof.
  split; [reflexivity|]. split; [reflexivity|].
  apply (aanvragen_fault_propagates Mock.get_bsn (Mock.signed [])
           Mock.bsn Mock.down Mock.down Mock.fault); reflexivity.
Defined.

Lemma document_without_id_is_forwarded_witness :
  multidict_get (Py.lit "id") (args (Mock.signed [])) = None
  /\ Mock.get_bsn (Mock.signed []) = Return Mock.bsn
  /\ hd_error
       (trace (document Mock.get_bsn Py.sample_unicode_lower
                 (Mock.signed []) Mock.up))
     = Some (CallDocument Mock.bsn None false false)
  /\ (forall rv,
        result (document Mock.get_bsn Py.sample_unicode_lower
                  (Mock.signed []) Mock.up) = Return rv ->
        rv_status rv <> 422).
Proof.
  split; [reflexivity|]. split; [reflexivity|].
  apply (document_without_id_is_forwarded Mock.get_bsn
           Py.sample_unicode_lower (Mock.signed []) Mock.bsn Mock.up);
    reflexivity.
Defined.

Lemma document_success_response_witness :
  let request :=
    Mock.signed [(Py.lit "id", Py.lit "172013");
                 (Py.lit "isBulk", Py.lit "True")] in
  Mock.get_bsn request = Return Mock.bsn
  /\ conn_document Mock.bsn (Some (Py.lit "172013")) true false Mock.up
     = (Return Mock.pdf, Mock.up)
  /\ header_value_ok (fileName Mock.pdf) = true
  /\ header_value_ok (mime_type Mock.pdf) = true
  /\ exists response,
       document Mock.get_bsn Py.sample_unicode_lower request Mock.up
       = mk_run (Return (RvResponse response)) Mock.up
           [CallDocument Mock.bsn (Some (Py.lit "172013")) true false]
       /\ body response = Bytes (contents Mock.pdf)
       /\ headers response !! content_disposition_key
          = Some (Py.lit "attachment; filename=" ++ Py.dquote
                    ++ Py.lit "aanvraag.pdf" ++ Py.dquote)
       /\ headers response !! content_type_key
          = Some (Py.lit "application/pdf").
Proof.
  intros request.
  split; [reflexivity|]. split; [reflexivity|].
  split; [reflexivity|]. split; [reflexivity|].
  assert (Hdoc : conn_document Mock.bsn
                   (multidict_get (Py.lit "id") (args request))
                   (bool_arg Py.sample_unicode_lower (Py.lit "isBulk") request)
                   (bool_arg Py.sample_unicode_lower (Py.lit "isDms") request)
                   Mock.up = (Return Mock.pdf, Mock.up)) by reflexivity.
  destruct (document_success_response Mock.get_bsn Py.sample_unicode_lower
              request Mock.bsn Mock.up Mock.up Mock.pdf eq_refl Hdoc
              eq_refl eq_refl)
    as (response & Hrun & _ & Hbody & Hdisp & Htype & _).
  exists response. repeat split; assumption.
Defined.

Lemma document_flags_strict_witness :
  let request :=
    Mock.signed [(Py.lit "isBulk", Py.lit "TRUE");
                 (Py.lit "isDms", Py.lit "yes")] in
  Py.unicode_lower_sound Py.sample_unicode_lower
  /\ bool_arg Py.sample_unicode_lower (Py.lit "isBulk") request = true
  /\ bool_arg Py.sample_unicode_lower (Py.lit "isDms") request = false
  /\ (bool_arg Py.sample_unicode_lower (Py.lit "isDms") request = true <->
      exists value,
        multidict_get (Py.lit "isDms") (args request) = Some value
        /\ Py.ascii_lower value = Py.lit "true").
Proof.
  intros request.
  split; [exact sample_unicode_lower_sound|].
  split; [reflexivity|]. split; [reflexivity|].
  exact (proj1 (proj2 (document_flags_strict Mock.get_bsn
                         Py.sample_unicode_lower request
                         sample_unicode_lower_sound))).
Defined.

(** ** The addressing codec *)

Section CodecProperties.

Import Codec.

Variable sep : N.
Variables key nonce : Type.
Variable cipher_encrypt : key -> nonce -> Py.str -> Py.bytes.
Variable cipher_decrypt : key -> Py.bytes -> option Py.str.
Variable url_encode : Py.bytes -> Py.str.
Variable url_decode : Py.str -> option Py.bytes.

Local Abbreviation split := (split sep).
Local Abbreviation join := (join sep).
Local Abbreviation field_ok := (field_ok sep).

(** Splitting stops a field at the first separator. *)
Lemma split_field (f s : Py.str) :
  field_ok f = true -> split (f ++ sep :: s) = f :: split s.
Proof.
  induction f as [|c f IH]; intros Hok.
  - cbn. now rewrite N.eqb_refl.
  - cbn in Hok. apply andb_prop in Hok as [Hc Hf].
    apply negb_true_iff in Hc.
    cbn. rewrite Hc. now rewrite (IH Hf).
Qed.

(** A string without separator is a single field. *)
Lemma split_single (f : Py.str) : field_ok f = true -> split f = [f].
Proof.
  induction f as [|c f IH]; intros Hok; [reflexivity|].
  cbn in Hok. apply andb_prop in Hok as [Hc Hf].
  apply negb_true_iff in Hc.
  cbn. rewrite Hc. now rewrite (IH Hf).
Qed.

(** Joining is injective on separator-free fields: splitting gives the
    fields back, whatever their number and whether empty or not. *)
Lemma split_join (fields : list Py.str) :
  fields <> [] ->
  forallb field_ok fields = true ->
  split (join fields) = fields.
Proof.
  induction fields as [|f fs IH]; intros Hne Hok; [congruence|].
  cbn [forallb] in Hok. apply andb_prop in Hok as [Hf Hfs].
  destruct fs as [|g fs].
  - now apply split_single.
  - change (join (f :: g :: fs)) with (f ++ sep :: join (g :: fs)).
    rewrite (split_field _ _ Hf). f_equal. now apply IH.
Qed.

(** C2. For every key material, nonce and composite key whose three
    fields are free of the separator (empty fields included), decoding
    the encoded token under the same key returns the composite key. *)
Theorem decode_encode_roundtrip (k : composite_key) (K : key) (n : nonce) :
  cipher_correct cipher_encrypt cipher_decrypt ->
  url_correct url_encode url_decode ->
  valid sep k = true ->
  decode sep cipher_decrypt url_decode
    (encode sep cipher_encrypt url_encode k K n) K
  = Decoded k.
Proof.
  intros Hcipher Hurl Hvalid.
  unfold decode, encode. rewrite Hurl, Hcipher.
  unfold valid in Hvalid.
  apply andb_prop in Hvalid as [Hvalid Hp].
  apply andb_prop in Hvalid as [Hb Ha].
  rewrite split_join.
  - now destruct k.
  - discriminate.
  - cbn [forallb]. now rewrite Hb, Ha, Hp.
Qed.

End CodecProperties.

Lemma toy_cipher_correct :
  Codec.cipher_correct Codec.toy_encrypt Codec.toy_decrypt.
Proof. intros K n p. cbn. now rewrite N.eqb_refl. Qed.

Lemma toy_url_correct :
  Codec.url_correct Codec.toy_url_encode Codec.toy_url_decode.
Proof. intros b. reflexivity. Qed.

Example toy_wrong_key :
  Codec.decode 58 Codec.toy_decrypt Codec.toy_url_decode
    (Codec.encode 58 Codec.toy_encrypt Codec.toy_url_encode
       Codec.test_key 7 0) 8
  = Codec.InvalidTokenError.
Proof. reflexivity. Qed.

Example split_keeps_empty_fields :
  Codec.split 58 (Py.lit "aaa::6666666666666")
  = [Py.lit "aaa"; []; Py.lit "6666666666666"].
Proof. reflexivity. Qed.

Lemma decode_encode_roundtrip_witness :
  Codec.cipher_correct Codec.toy_encrypt Codec.toy_decrypt
  /\ Codec.url_correct Codec.toy_url_encode Codec.toy_url_decode
  /\ Codec.valid 58 Codec.test_key = true
  /\ Codec.decode 58 Codec.toy_decrypt Codec.toy_url_decode
       (Codec.encode 58 Codec.toy_encrypt Codec.toy_url_encode
          Codec.test_key 7 0) 7
     = Codec.Decoded Codec.test_key.
Proof.
  split; [exact toy_cipher_correct|]. split; [exact toy_url_correct|].
  split; [reflexivity|].
  apply (decode_encode_roundtrip 58 N N Codec.toy_encrypt Codec.toy_decrypt
           Codec.toy_url_encode Codec.toy_url_decode Codec.test_key 7 0
           toy_cipher_correct toy_url_correct).
  reflexivity.
Defined.

(** ** Further properties of the views *)

Section ServerExtras.

Context {C : Type} `{!FocusConnection C}.
Variable get_bsn_from_request : request -> outcome Py.str.
Variable unicode_lower : Py.str -> nat -> N -> Py.str.

Local Abbreviation serve := (serve get_bsn_from_request unicode_lower).
Local Abbreviation aanvragen := (aanvragen get_bsn_from_request).
Local Abbreviation combined := (combined get_bsn_from_request).
Local Abbreviation document := (document get_bsn_from_request unicode_lower).
Local Abbreviation bool_arg := (bool_arg unicode_lower).

(** X1. When the three remote operations of the combined view return,
    they were called in the order jaaropgaven, uitkeringsspecificaties,
    EAanvragenTozo, each on the state the previous one left, and the view
    hands back the dictionary with status OK and the three results; there
    is no reset and no log record. *)
Theorem combined_success
    (request : request) (bsn : Py.str) (c c1 c2 c3 : C) (j u t : json) :
  get_bsn_from_request request = Return bsn ->
  conn_jaaropgaven bsn (script_root request) c = (Return j, c1) ->
  conn_uitkeringsspecificaties bsn (script_root request) c1
  = (Return u, c2) ->
  conn_EAanvragenTozo bsn (script_root request) c2 = (Return t, c3) ->
  combined request c
  = mk_run (Return (RvDict (combined_dict j u t))) c3
      [CallJaaropgaven bsn (script_root request);
       CallUitkeringsspecificaties bsn (script_root request);
       CallEAanvragenTozo bsn (script_root request)].
Proof.
  intros Hbsn Hj Hu Ht. unfold_run. rewrite Hbsn.
  cbn [result final trace]. now rewrite Hj, Hu, Ht.
Qed.

(** X2. The combined view fails fast: when the first remote operation
    raises, the other two are not called; the failure is logged, the
    connection is reset on the state the failed call left, and the uniform
    500 response is returned. *)
Theorem combined_first_fault_skips_the_rest
    (request : request) (bsn : Py.str) (c c' : C) (error : exn) :
  get_bsn_from_request request = Return bsn ->
  conn_jaaropgaven bsn (script_root request) c = (Raise error, c') ->
  combined request c
  = mk_run (Return (RvResponse no_connection)) (conn_reset c')
      [CallJaaropgaven bsn (script_root request);
       LogError (failed_message "aanvragen" error);
       CallReset].
Proof.
  intros Hbsn Hj. unfold_run. rewrite Hbsn.
  cbn [result final trace]. now rewrite Hj.
Qed.

(** X3. The combined view is all or nothing: with a BSN its trace is the
    three remote calls and the result the dictionary, or the trace is the
    calls up to a failed one followed by one log record and one reset and
    the result is the uniform 500 response, which carries none of the data
    already fetched. *)
Theorem combined_all_or_nothing
    (request : request) (bsn : Py.str) (c : C) :
  get_bsn_from_request request = Return bsn ->
  let r := combined request c in
  let J := CallJaaropgaven bsn (script_root request) in
  let U := CallUitkeringsspecificaties bsn (script_root request) in
  let T := CallEAanvragenTozo bsn (script_root request) in
  (exists d, result r = Return (RvDict d) /\ trace r = [J; U; T])
  \/ (exists error calls,
        result r = Return (RvResponse no_connection)
        /\ trace r
           = calls ++ [LogError (failed_message "aanvragen" error);
                       CallReset]
        /\ (calls = [J] \/ calls = [J; U] \/ calls = [J; U; T])).
Proof.
  intros Hbsn r J U T. subst r J U T. unfold_run. rewrite Hbsn.
  cbn [result final trace].
  next_call; [next_call; [next_call|]|].
  - left. eexists. split; reflexivity.
  - right. eexists _, _. split; [reflexivity|].
    split; [|right; right; reflexivity]. reflexivity.
  - right. eexists _, _. split; [reflexivity|].
    split; [|right; left; reflexivity]. reflexivity.
  - right. eexists _, _. split; [reflexivity|].
    split; [|left; reflexivity]. reflexivity.
Qed.

(** X5. When the remote operation of the aanvragen view returns, the view
    answers [jsonify] of the result: status 200, content type
    application/json, the result as body; one remote call, no reset, and
    the connection in the state the call left. *)
Theorem aanvragen_success
    (request : request) (bsn : Py.str) (c c' : C) (a : json) :
  get_bsn_from_request request = Return bsn ->
  conn_aanvragen bsn (script_root request) c = (Return a, c') ->
  exists response,
    aanvragen request c
    = mk_run (Return (RvResponse response)) c'
        [CallAanvragen bsn (script_root request)]
    /\ status response = 200
    /\ body response = Json a
    /\ headers response !! content_type_key
       = Some (Py.lit "application/json").
Proof.
  intros Hbsn Ha. exists (jsonify a). split.
  - unfold_run. rewrite Hbsn. cbn [result final trace]. now rewrite Ha.
  - repeat split; apply lookup_singleton_eq.
Qed.

(** X6. An exception leaves a view in two ways only.  Either the view is
    aanvragen, the BSN was extracted, and the exception is the one the
    remote call raised; or the view is document, the remote call returned
    a document whose file name or MIME type holds a carriage return or a
    line feed, and the exception is the [ValueError] of the header
    assignment. *)
Theorem exceptions_that_leave_a_view
    (v : view) (request : request) (c : C) (error : exn) :
  result (serve v request c) = Raise error ->
  (v = Aanvragen
   /\ exists bsn,
        get_bsn_from_request request = Return bsn
        /\ (conn_aanvragen bsn (script_root request) c).1 = Raise error)
  \/ (v = Document
      /\ error = header_value_error
      /\ exists bsn doc,
           get_bsn_from_request request = Return bsn
           /\ (conn_document bsn
                 (multidict_get (Py.lit "id") (args request))
                 (bool_arg (Py.lit "isBulk") request)
                 (bool_arg (Py.lit "isDms") request) c).1 = Return doc
           /\ (header_value_ok (fileName doc) = false
               \/ header_value_ok (mime_type doc) = false)).
Proof.
  destruct v; unfold_run;
    try destruct (get_bsn_from_request request) as [bsn|e] eqn:Hbsn;
    cbn [result final trace];
    repeat next_call; intros Hres; try discriminate Hres.
  - left. split; [reflexivity|]. exists bsn. split; [reflexivity|].
    match goal with H : conn_aanvragen _ _ _ = _ |- _ => rewrite H end.
    cbn [fst]. now injection Hres as ->.
  - right. split; [reflexivity|].
    match goal with
    | H : conn_document _ _ _ _ _ = (Return ?d, _) |- _ =>
        destruct (document_response d) as [r|e] eqn:Hr;
        [discriminate Hres|];
        cbn [outcome_map] in Hres; injection Hres as ->;
        apply document_response_raises in Hr as [-> Hbad];
        split; [reflexivity|]; exists bsn, d; rewrite H
    end.
    split; [reflexivity|]. split; [reflexivity|]. exact Hbad.
Qed.

(** X11. When the remote call of the document view returns a document
    whose file name or MIME type holds a carriage return or a line feed,
    the view raises the [ValueError] of the header assignment: the remote
    call is the only event, there is no log record and no reset, and the
    connection is in the state the call left. *)
Theorem document_header_newline_raises
    (request : request) (bsn : Py.str) (c c' : C) (doc : document_data) :
  let id := multidict_get (Py.lit "id") (args request) in
  let isBulk := bool_arg (Py.lit "isBulk") request in
  let isDms := bool_arg (Py.lit "isDms") request in
  get_bsn_from_request request = Return bsn ->
  conn_document bsn id isBulk isDms c = (Return doc, c') ->
  header_value_ok (fileName doc) = false
  \/ header_value_ok (mime_type doc) = false ->
  document request c
  = mk_run (Raise header_value_error) c'
      [CallDocument bsn id isBulk isDms].
Proof.
  intros id isBulk isDms Hbsn Hdoc Hbad. subst id isBulk isDms.
  assert (Hr : document_response doc = Raise header_value_error)
    by (apply document_response_raises; auto).
  unfold_run. rewrite Hbsn. cbn [result final trace].
  now rewrite Hdoc, Hr.
Qed.

(** X7. A view queries the backend for the caller only: every remote
    operation in the trace of a view carries the BSN that was extracted
    from the request, and the script root of the request as [url_root]
    where it takes one. *)
Theorem remote_calls_carry_the_request_bsn
    (v : view) (request : request) (c : C) (ev : event) (bsn : Py.str) :
  In ev (trace (serve v request c)) ->
  event_bsn ev = Some bsn ->
  get_bsn_from_request request = Return bsn
  /\ (forall root, event_url_root ev = Some root ->
        root = script_root request).
Proof.
  destruct v; unfold_run;
    try destruct (get_bsn_from_request request) as [b|e] eqn:Hbsn;
    cbn [result final trace];
    repeat next_call; cbn [In app];
    intros Hin Hev;
    repeat (destruct Hin as [Hin|Hin]; [subst ev|]); try contradiction;
    try discriminate Hev;
    injection Hev as ->;
    (split; [reflexivity|]); intros root [= <-]; reflexivity.
Qed.

(** X8. A log record is written by the combined and document views only,
    and always as the last thing before the reset that ends the trace: the
    probe failure of the status view and the fault that leaves the
    aanvragen view are not logged. *)
Theorem log_record_precedes_the_reset
    (v : view) (request : request) (c : C) (message : Py.str) :
  In (LogError message) (trace (serve v request c)) ->
  (v = Combined \/ v = Document)
  /\ exists calls,
       trace (serve v request c)
       = calls ++ [LogError message; CallReset]
       /\ forallb (fun e => negb (is_reset e)) calls = true.
Proof.
  destruct v; unfold_run;
    try destruct (get_bsn_from_request request) as [b|e] eqn:Hbsn;
    cbn [result final trace];
    repeat next_call; cbn [In app];
    intros Hin;
    repeat (destruct Hin as [Hin|Hin]; try discriminate Hin);
    try contradiction;
    injection Hin as <-;
    (split; [auto|]);
    first [ eexists [_]; split; reflexivity
          | eexists [_; _]; split; reflexivity
          | eexists [_; _; _]; split; reflexivity ].
Qed.

(** X4. When the remote operation of the document view raises, the view
    logs the failure, resets the connection once, on the state the failed
    call left, and answers the 500 plain-text response, whose text is the
    same whatever the exception was. *)
Theorem document_fault_resets_once
    (request : request) (bsn : Py.str) (c c' : C) (error : exn) :
  get_bsn_from_request request = Return bsn ->
  conn_document bsn (multidict_get (Py.lit "id") (args request))
    (bool_arg (Py.lit "isBulk") request)
    (bool_arg (Py.lit "isDms") request) c = (Raise error, c') ->
  exists response,
    document request c
    = mk_run (Return (RvResponse response)) (conn_reset c')
        [CallDocument bsn (multidict_get (Py.lit "id") (args request))
           (bool_arg (Py.lit "isBulk") request)
           (bool_arg (Py.lit "isDms") request);
         LogError (failed_message "document" error);
         CallReset]
    /\ status response = 500
    /\ body response = Text (Py.lit "Focus connectivity failed")
    /\ headers response !! content_type_key = Some (Py.lit "text/plain").
Proof.
  intros Hbsn Hdoc. exists no_connection. split.
  - now apply document_fault_is_uniform.
  - apply no_connection_shape.
Qed.

(** X10. A reset is the last thing a view does to the connection: when
    the trace of a view contains a reset, it ends with it, and the
    connection is left in a freshly reset state for the next request. *)
Theorem reset_is_last
    (v : view) (request : request) (c : C) :
  In CallReset (trace (serve v request c)) ->
  exists calls c0,
    trace (serve v request c) = calls ++ [CallReset]
    /\ final (serve v request c) = conn_reset c0
    /\ forallb (fun e => negb (is_reset e)) calls = true.
Proof.
  destruct v; unfold_run;
    try destruct (get_bsn_from_request request) as [b|e] eqn:Hbsn;
    cbn [result final trace];
    repeat next_call; cbn [In app];
    intros Hin;
    repeat (destruct Hin as [Hin|Hin]; try discriminate Hin);
    try contradiction;
    first [ eexists [_], _; repeat split; reflexivity
          | eexists [_; _], _; repeat split; reflexivity
          | eexists [_; _; _], _; repeat split; reflexivity
          | eexists [_; _; _; _], _; repeat split; reflexivity ].
Qed.

End ServerExtras.


(** ** The accepted spellings of a flag *)

Lemma ascii_lower_char_letter (a x : N) :
  97 <= x <= 122 ->
  Py.ascii_lower_char a = x <-> a = x \/ a + 32 = x.
Proof.
  intros Hx. unfold Py.ascii_lower_char, Py.is_ascii_upper.
  destruct (65 <=? a) eqn:Hlo, (a <=? 90) eqn:Hhi; cbn [andb];
    try apply N.leb_le in Hlo; try apply N.leb_le in Hhi;
    try apply N.leb_gt in Hlo; try apply N.leb_gt in Hhi; lia.
Qed.

Lemma letter_either_case (a x : N) :
  97 <= x <= 122 ->
  Py.ascii_lower_char a = x <-> (a =? x) || (a =? x - 32) = true.
Proof.
  intros Hx. rewrite (ascii_lower_char_letter a x Hx).
  rewrite orb_true_iff, !N.eqb_eq. lia.
Qed.

Lemma ascii_lower_true_iff (value : Py.str) :
  Py.ascii_lower value = Py.lit "true" <-> spells_true value = true.
Proof.
  change (Py.lit "true") with [116; 114; 117; 101].
  destruct value as [|t [|r [|u [|e [|x value]]]]];
    try (split; discriminate).
  unfold Py.ascii_lower, spells_true. cbn [map].
  rewrite !andb_true_iff.
  change 84 with (116 - 32). change 82 with (114 - 32).
  change 85 with (117 - 32). change 69 with (101 - 32).
  rewrite <- !letter_either_case by lia.
  split.
  - intros [= -> -> -> ->]. auto.
  - intros [[[-> ->] ->] ->]. reflexivity.
Qed.

Section FlagSpellings.

Variable unicode_lower : Py.str -> nat -> N -> Py.str.

(** X9. A boolean query parameter of the document view is true exactly
    when its first value is one of the sixteen spellings of [true] (the
    four letters, each in either case): nothing is trimmed, and no other
    value, of whatever alphabet, counts as true. *)
Theorem flag_true_iff_spelled (name : Py.str) (request : request) :
  Py.unicode_lower_sound unicode_lower ->
  bool_arg unicode_lower name request = true <->
  exists value,
    multidict_get name (args request) = Some value
    /\ spells_true value = true.
Proof.
  intros Hsound. unfold bool_arg.
  rewrite bool_decide_eq_true.
  rewrite (lower_eq_iff _ Hsound) by reflexivity.
  rewrite ascii_lower_true_iff.
  destruct (multidict_get name (args request)) as [value|]; cbn.
  - split; [eauto|]. now intros (? & [= <-] & ?).
  - split; [discriminate|]. now intros (? & ? & _).
Qed.

End FlagSpellings.

Example flag_is_not_trimmed :
  bool_arg Py.sample_unicode_lower (Py.lit "isBulk")
    (Mock.signed [(Py.lit "isBulk", Py.lit " true")]) = false.
Proof. reflexivity. Qed.

Lemma combined_success_witness :
  Mock.get_bsn (Mock.signed []) = Return Mock.bsn
  /\ conn_jaaropgaven Mock.bsn (Py.lit "/api") Mock.up
     = (Return (JList []), Mock.up)
  /\ conn_uitkeringsspecificaties Mock.bsn (Py.lit "/api") Mock.up
     = (Return (JList []), Mock.up)
  /\ conn_EAanvragenTozo Mock.bsn (Py.lit "/api") Mock.up
     = (Return (JList []), Mock.up)
  /\ combined Mock.get_bsn (Mock.signed []) Mock.up
     = mk_run
         (Return (RvDict (combined_dict (JList []) (JList []) (JList []))))
         Mock.up
         [CallJaaropgaven Mock.bsn (Py.lit "/api");
          CallUitkeringsspecificaties Mock.bsn (Py.lit "/api");
          CallEAanvragenTozo Mock.bsn (Py.lit "/api")].
Proof.
  repeat (split; [reflexivity|]).
  refine (combined_success Mock.get_bsn (Mock.signed []) Mock.bsn
            Mock.up Mock.up Mock.up Mock.up _ _ _ _ _ _ _);
    reflexivity.
Defined.

Lemma combined_first_fault_skips_the_rest_witness :
  Mock.get_bsn (Mock.signed []) = Return Mock.bsn
  /\ conn_jaaropgaven Mock.bsn (Py.lit "/api") Mock.down
     = (Raise Mock.fault, Mock.down)
  /\ combined Mock.get_bsn (Mock.signed []) Mock.down
     = mk_run (Return (RvResponse no_connection)) (Mock.mk_conn true 1)
         [CallJaaropgaven Mock.bsn (Py.lit "/api");
          LogError (failed_message "aanvragen" Mock.fault);
          CallReset].
Proof.
  repeat (split; [reflexivity|]).
  refine (combined_first_fault_skips_the_rest Mock.get_bsn
            (Mock.signed []) Mock.bsn Mock.down Mock.down Mock.fault _ _);
    reflexivity.
Defined.

Lemma combined_all_or_nothing_witness :
  Mock.get_bsn (Mock.signed []) = Return Mock.bsn
  /\ ((exists d,
         result (combined Mock.get_bsn (Mock.signed []) Mock.down)
         = Return (RvDict d)
         /\ trace (combined Mock.get_bsn (Mock.signed []) Mock.down)
            = [CallJaaropgaven Mock.bsn (Py.lit "/api");
               CallUitkeringsspecificaties Mock.bsn (Py.lit "/api");
               CallEAanvragenTozo Mock.bsn (Py.lit "/api")])
      \/ (exists error calls,
            result (combined Mock.get_bsn (Mock.signed []) Mock.down)
            = Return (RvResponse no_connection)
            /\ trace (combined Mock.get_bsn (Mock.signed []) Mock.down)
               = calls ++ [LogError (failed_message "aanvragen" error);
                           CallReset]
            /\ (calls = [CallJaaropgaven Mock.bsn (Py.lit "/api")]
                \/ calls
                   = [CallJaaropgaven Mock.bsn (Py.lit "/api");
                      CallUitkeringsspecificaties Mock.bsn (Py.lit "/api")]
                \/ calls
                   = [CallJaaropgaven Mock.bsn (Py.lit "/api");
                      CallUitkeringsspecificaties Mock.bsn (Py.lit "/api");
                      CallEAanvragenTozo Mock.bsn (Py.lit "/api")]))).
Proof.
  split; [reflexivity|].
  apply (combined_all_or_nothing Mock.get_bsn (Mock.signed []) Mock.bsn
           Mock.down); reflexivity.
Defined.

Lemma document_fault_resets_once_witness :
  let request := Mock.signed [(Py.lit "id", Py.lit "172013")] in
  Mock.get_bsn request = Return Mock.bsn
  /\ conn_document Mock.bsn (Some (Py.lit "172013")) false false Mock.down
     = (Raise Mock.fault, Mock.down)
  /\ exists response,
       document Mock.get_bsn Py.sample_unicode_lower request Mock.down
       = mk_run (Return (RvResponse response)) (Mock.mk_conn true 1)
           [CallDocument Mock.bsn (Some (Py.lit "172013")) false false;
            LogError (failed_message "document" Mock.fault);
            CallReset]
       /\ status response = 500
       /\ body response = Text (Py.lit "Focus connectivity failed")
       /\ headers response !! content_type_key
          = Some (Py.lit "text/plain").
Proof.
  intros request.
  repeat (split; [reflexivity|]).
  refine (document_fault_resets_once Mock.get_bsn Py.sample_unicode_lower
            request Mock.bsn Mock.down Mock.down Mock.fault _ _);
    reflexivity.
Defined.

Lemma aanvragen_success_witness :
  Mock.get_bsn (Mock.signed []) = Return Mock.bsn
  /\ conn_aanvragen Mock.bsn (Py.lit "/api") Mock.up
     = (Return (JList []), Mock.up)
  /\ exists response,
       aanvragen Mock.get_bsn (Mock.signed []) Mock.up
       = mk_run (Return (RvResponse response)) Mock.up
           [CallAanvragen Mock.bsn (Py.lit "/api")]
       /\ status response = 200
       /\ body response = Json (JList [])
       /\ headers response !! content_type_key
          = Some (Py.lit "application/json").
Proof.
  repeat (split; [reflexivity|]).
  refine (aanvragen_success Mock.get_bsn (Mock.signed []) Mock.bsn
            Mock.up Mock.up (JList []) _ _); reflexivity.
Defined.

Lemma reset_is_last_witness :
  let run := serve Mock.get_bsn Py.sample_unicode_lower StatusData
               (Mock.unsigned []) Mock.down in
  In CallReset (trace run)
  /\ exists calls c0,
       trace run = calls ++ [CallReset]
       /\ final run = conn_reset c0
       /\ forallb (fun e => negb (is_reset e)) calls = true.
Proof.
  intros run.
  assert (Hin : In CallReset (trace run)) by (right; left; reflexivity).
  split; [exact Hin|].
  exact (reset_is_last Mock.get_bsn Py.sample_unicode_lower StatusData
           (Mock.unsigned []) Mock.down Hin).
Defined.

Lemma exceptions_that_leave_a_view_witness :
  let request := Mock.signed [] in
  let c := Archive.mk_conn Archive.two_lines in
  result (serve Mock.get_bsn Py.sample_unicode_lower Document request c)
  = Raise header_value_error
  /\ ((Document = Aanvragen
       /\ exists bsn,
            Mock.get_bsn request = Return bsn
            /\ (conn_aanvragen bsn (script_root request) c).1
               = Raise header_value_error)
      \/ (Document = Document
          /\ header_value_error = header_value_error
          /\ exists bsn doc,
               Mock.get_bsn request = Return bsn
               /\ (conn_document bsn
                     (multidict_get (Py.lit "id") (args request))
                     (bool_arg Py.sample_unicode_lower (Py.lit "isBulk")
                        request)
                     (bool_arg Py.sample_unicode_lower (Py.lit "isDms")
                        request) c).1 = Return doc
               /\ (header_value_ok (fileName doc) = false
                   \/ header_value_ok (mime_type doc) = false))).
Proof.
  intros request c.
  assert (Hres : result (serve Mock.get_bsn Py.sample_unicode_lower
                           Document request c)
                 = Raise header_value_error) by reflexivity.
  split; [exact Hres|].
  exact (exceptions_that_leave_a_view Mock.get_bsn Py.sample_unicode_lower
           Document request c header_value_error Hres).
Defined.

Lemma document_header_newline_raises_witness :
  let request := Mock.signed [] in
  let c := Archive.mk_conn Archive.two_lines in
  Mock.get_bsn request = Return Mock.bsn
  /\ conn_document Mock.bsn None false false c
     = (Return Archive.two_lines, c)
  /\ header_value_ok (fileName Archive.two_lines) = false
  /\ document Mock.get_bsn Py.sample_unicode_lower request c
     = mk_run (Raise header_value_error) c
         [CallDocument Mock.bsn None false false].
Proof.
  intros request c.
  repeat (split; [reflexivity|]).
  refine (document_header_newline_raises Mock.get_bsn
            Py.sample_unicode_lower request Mock.bsn c c
            Archive.two_lines _ _ _); [reflexivity|reflexivity|].
  left. reflexivity.
Defined.

(** C6, as first stated, fails on a document whose file name holds a line
    feed: the fetch succeeds, yet the view builds no response. *)
Lemma document_success_response_counterexample :
  let request := Mock.signed [] in
  let c := Archive.mk_conn Archive.two_lines in
  Mock.get_bsn request = Return Mock.bsn
  /\ conn_document Mock.bsn None false false c
     = (Return Archive.two_lines, c)
  /\ ~ (exists response,
          result (document Mock.get_bsn Py.sample_unicode_lower request c)
          = Return (RvResponse response)
          /\ body response = Bytes (contents Archive.two_lines)
          /\ headers response !! content_disposition_key
             = Some (Py.lit "attachment; filename=" ++ Py.dquote
                       ++ fileName Archive.two_lines ++ Py.dquote)
          /\ headers response !! content_type_key
             = Some (mime_type Archive.two_lines)).
Proof.
  intros request c.
  split; [reflexivity|]. split; [reflexivity|].
  intros (response & Hres & _). discriminate Hres.
Qed.

Lemma remote_calls_carry_the_request_bsn_witness :
  In (CallUitkeringsspecificaties Mock.bsn (Py.lit "/api"))
     (trace (serve Mock.get_bsn Py.sample_unicode_lower Combined
               (Mock.signed []) Mock.up))
  /\ Mock.get_bsn (Mock.signed []) = Return Mock.bsn
  /\ (forall root,
        event_url_root
          (CallUitkeringsspecificaties Mock.bsn (Py.lit "/api"))
        = Some root ->
        root = script_root (Mock.signed [])).
Proof.
  assert (Hin : In (CallUitkeringsspecificaties Mock.bsn (Py.lit "/api"))
                  (trace (serve Mock.get_bsn Py.sample_unicode_lower
                            Combined (Mock.signed []) Mock.up)))
    by (right; left; reflexivity).
  split; [exact Hin|].
  exact (remote_calls_carry_the_request_bsn Mock.get_bsn
           Py.sample_unicode_lower Combined (Mock.signed []) Mock.up
           (CallUitkeringsspecificaties Mock.bsn (Py.lit "/api"))
           Mock.bsn Hin eq_refl).
Defined.

Lemma log_record_precedes_the_reset_witness :
  let request := Mock.signed [(Py.lit "id", Py.lit "172013")] in
  let run := serve Mock.get_bsn Py.sample_unicode_lower Document
               request Mock.down in
  In (LogError (failed_message "document" Mock.fault)) (trace run)
  /\ (Document = Combined \/ Document = Document)
  /\ exists calls,
       trace run
       = calls ++ [LogError (failed_message "document" Mock.fault);
                   CallReset]
       /\ forallb (fun e => negb (is_reset e)) calls = true.
Proof.
  intros request run.
  assert (Hin : In (LogError (failed_message "document" Mock.fault))
                  (trace run))
    by (right; left; reflexivity).
  split; [exact Hin|].
  exact (log_record_precedes_the_reset Mock.get_bsn
           Py.sample_unicode_lower Document request Mock.down
           (failed_message "document" Mock.fault) Hin).
Defined.

Lemma flag_true_iff_spelled_witness :
  let request := Mock.signed [(Py.lit "isBulk", Py.lit "tRuE")] in
  Py.unicode_lower_sound Py.sample_unicode_lower
  /\ bool_arg Py.sample_unicode_lower (Py.lit "isBulk") request = true
  /\ (bool_arg Py.sample_unicode_lower (Py.lit "isBulk") request = true <->
      exists value,
        multidict_get (Py.lit "isBulk") (args request) = Some value
        /\ spells_true value = true).
Proof.
  intros request.
  split; [exact sample_unicode_lower_sound|].
  split; [reflexivity|].
  exact (flag_true_iff_spelled Py.sample_unicode_lower (Py.lit "isBulk")
           request sample_unicode_lower_sound).
Defined.
